(** * Probe collection and caching orchestrator of the fingerprint library

    A shallow embedding of [src/fingerprint.js]: the configuration store
    ([Config]), the two-tier result cache ([Cache]), the probe base class
    ([FingerprintStrategy]), the registry ([StrategyRegistry]), the
    collector ([FingerprintCollector]) and the helpers [simpleHash],
    [cryptoHash] and [withTimeout], followed by the properties of the
    specification that concern them.

    Conventions of the model.
    - JavaScript strings are sequences of code units below 256, written as
      Rocq strings; numbers are the integers (timestamps, millisecond
      budgets, sizes and priorities are the only numbers the orchestrator
      computes with, magnitudes below 2^53).
    - A plain object is the list of its own enumerable properties in
      enumeration order; a [Map] is the list of its entries in insertion
      order.
    - Time is a millisecond clock.  A promise is described by the instant at
      which it settles and by how it settles. *)

From Stdlib Require Import ZArith Lia List String Ascii Bool DecimalString.
From stdpp Require Import base list strings.
Import ListNotations.
Open Scope Z_scope.
#[local] Set Warnings "-register-all".

(** ** JavaScript values and the built-in operations the code relies on *)

Module JS.

(** Members found on the prototype chain of a plain object or of an array:
    the two prototype objects themselves and their built-in functions. *)
Inductive builtin : Type :=
| ObjectPrototype
| ArrayPrototype
| Function (name : string).

Inductive value : Type :=
| VUndef
| VNull
| VBool (b : bool)
| VNum (n : Z)
| VStr (s : string)
| VArr (items : list value)
| VObj (props : list (string * value))
| VBuiltin (b : builtin).

(** [!!v] is false exactly for undefined, null, false, 0 and the empty string. *)
Definition truthy (v : value) : bool :=
  match v with
  | VUndef | VNull => false
  | VBool b => b
  | VNum n => negb (n =? 0)
  | VStr s => negb (String.eqb s EmptyString)
  | VArr _ | VObj _ | VBuiltin _ => true
  end.

(** [typeof v === 'object'] (true for null as well, as in the language). *)
Definition typeof_object (v : value) : bool :=
  match v with
  | VNull | VArr _ | VObj _ => true
  | VBuiltin ObjectPrototype | VBuiltin ArrayPrototype => true
  | _ => false
  end.

Definition is_array (v : value) : bool :=
  match v with
  | VArr _ | VBuiltin ArrayPrototype => true
  | _ => false
  end.

Definition string_of_Z (n : Z) : string := NilZero.string_of_int (Z.to_int n).

(** ToInt32: wrap-around to the signed 32-bit range ([x | 0]). *)
Definition to_int32 (n : Z) : Z := (n + 2147483648) mod 4294967296 - 2147483648.

(** *** Strings *)

Definition dot : ascii := "."%char.

(** [path.split('.')] *)
Fixpoint split (s : string) : list string :=
  match s with
  | EmptyString => [EmptyString]
  | String c rest =>
      if Ascii.eqb c dot then EmptyString :: split rest
      else match split rest with
           | [] => [String c EmptyString]
           | h :: t => String c h :: t
           end
  end.

Fixpoint join (sep : string) (l : list string) : string :=
  match l with
  | [] => EmptyString
  | [s] => s
  | s :: rest => s +:+ sep +:+ join sep rest
  end.

Fixpoint drop_string (n : nat) (s : string) : string :=
  match n, s with
  | O, _ => s
  | S n', String _ rest => drop_string n' rest
  | S _, EmptyString => EmptyString
  end.

Definition lower_char (c : ascii) : ascii :=
  let n := nat_of_ascii c in
  if (((65 <=? n) && (n <=? 90)) ||
      ((192 <=? n) && (n <=? 222) && negb (n =? 215)))%nat
  then ascii_of_nat (n + 32) else c.

(** [s.toLowerCase()] on code units below 256 *)
Fixpoint toLowerCase (s : string) : string :=
  match s with
  | EmptyString => EmptyString
  | String c rest => String (lower_char c) (toLowerCase rest)
  end.

(** [s.replace(pat, '')] for a non-empty string pattern: the first occurrence
    is removed. *)
Fixpoint remove_first (pat s : string) : string :=
  if String.prefix pat s then drop_string (String.length pat) s
  else match s with
       | EmptyString => EmptyString
       | String c rest => String c (remove_first pat rest)
       end.

(** [s.replace(/suffix$/, '')] *)
Definition remove_suffix (suffix s : string) : string :=
  let n := String.length s in
  let k := String.length suffix in
  if ((k <=? n)%nat && String.eqb (String.substring (n - k) k s) suffix)%bool
  then String.substring 0 (n - k) s else s.

(** [s.charAt(0).toLowerCase() + s.slice(1)] *)
Definition lower_first (s : string) : string :=
  match s with
  | EmptyString => EmptyString
  | String c rest => String (lower_char c) rest
  end.

(** *** Array indices

    A property key is an array index when it is the canonical decimal form
    of an integer between 0 and 2^32 - 2. *)

Definition digit_of (c : ascii) : option N :=
  let n := N_of_ascii c in
  if ((48 <=? n) && (n <=? 57))%N then Some (n - 48)%N else None.

Fixpoint parse_digits (acc : N) (s : string) : option N :=
  match s with
  | EmptyString => Some acc
  | String c rest =>
      match digit_of c with
      | Some d => parse_digits (acc * 10 + d)%N rest
      | None => None
      end
  end.

Definition array_index (k : string) : option N :=
  match k with
  | EmptyString => None
  | String c rest =>
      if (Ascii.eqb c "0"%char && negb (String.eqb rest EmptyString))%bool then None
      else match parse_digits 0%N k with
           | Some n => if (n <=? 4294967294)%N then Some n else None
           | None => None
           end
  end.

(** *** Properties: own, inherited, read and written *)

Fixpoint own_lookup {A : Type} (l : list (string * A)) (k : string) : option A :=
  match l with
  | [] => None
  | (k', v) :: rest => if String.eqb k' k then Some v else own_lookup rest k
  end.

Definition Object_prototype_names : list string :=
  [ "constructor"; "__defineGetter__"; "__defineSetter__"; "hasOwnProperty";
    "__lookupGetter__"; "__lookupSetter__"; "isPrototypeOf";
    "propertyIsEnumerable"; "toString"; "valueOf"; "__proto__";
    "toLocaleString" ]%string.

Definition Array_prototype_names : list string :=
  [ "length"; "constructor"; "at"; "concat"; "copyWithin"; "fill"; "find";
    "findIndex"; "findLast"; "findLastIndex"; "lastIndexOf"; "pop"; "push";
    "reverse"; "shift"; "unshift"; "slice"; "sort"; "splice"; "includes";
    "indexOf"; "join"; "keys"; "entries"; "values"; "forEach"; "filter";
    "flat"; "flatMap"; "map"; "every"; "some"; "reduce"; "reduceRight";
    "toReversed"; "toSorted"; "toSpliced"; "with"; "toLocaleString";
    "toString" ]%string.

Definition mem (k : string) (l : list string) : bool := existsb (String.eqb k) l.

(** A member of [Object.prototype], read through an object whose prototype
    it is ([via_proto = true]) or on [Object.prototype] itself. *)
Definition object_prototype_member (via_proto : bool) (k : string) : option value :=
  if String.eqb k "__proto__" then
    Some (if via_proto then VBuiltin ObjectPrototype else VNull)
  else if String.eqb k "constructor" then Some (VBuiltin (Function "Object"))
  else if mem k Object_prototype_names then Some (VBuiltin (Function k))
  else None.

Definition array_prototype_member (via_proto : bool) (k : string) : option value :=
  if String.eqb k "length" then Some (VNum 0)
  else if String.eqb k "constructor" then Some (VBuiltin (Function "Array"))
  else if mem k Array_prototype_names then Some (VBuiltin (Function k))
  else if String.eqb k "__proto__" then
    Some (VBuiltin (if via_proto then ArrayPrototype else ObjectPrototype))
  else object_prototype_member true k.

(** [v[k]] together with [k in v], for the values on which the code uses
    them: [None] when [k in v] is false.  Primitive strings expose their
    indices and their length, built-in functions their [name]; of the other
    members of primitives and functions the code reads none. *)
Definition lookup (v : value) (k : string) : option value :=
  match v with
  | VObj props =>
      match own_lookup props k with
      | Some x => Some x
      | None => object_prototype_member true k
      end
  | VArr items =>
      match array_index k with
      | Some i =>
          match nth_error items (N.to_nat i) with
          | Some x => Some x
          | None => None
          end
      | None =>
          if String.eqb k "length" then Some (VNum (Z.of_nat (List.length items)))
          else array_prototype_member true k
      end
  | VBuiltin ObjectPrototype => object_prototype_member false k
  | VBuiltin ArrayPrototype => array_prototype_member false k
  | VBuiltin (Function name) =>
      if String.eqb k "name" then Some (VStr name) else None
  | VStr s =>
      match array_index k with
      | Some i =>
          match String.get (N.to_nat i) s with
          | Some c => Some (VStr (String c EmptyString))
          | None => None
          end
      | None =>
          if String.eqb k "length" then Some (VNum (Z.of_nat (String.length s)))
          else None
      end
  | _ => None
  end.

(** [k in v] *)
Definition has_property (v : value) (k : string) : bool :=
  match lookup v k with Some _ => true | None => false end.

(** [v[k]] *)
Definition get (v : value) (k : string) : value :=
  match lookup v k with Some x => x | None => VUndef end.

Fixpoint replace_own {A : Type} (l : list (string * A)) (k : string) (x : A)
  : list (string * A) :=
  match l with
  | [] => []
  | (k', y) :: rest =>
      if String.eqb k' k then (k', x) :: rest else (k', y) :: replace_own rest k x
  end.

(** A new own property takes its place in enumeration order: array indices
    come first, in ascending order, then the other keys in creation order. *)
Fixpoint insert_index {A : Type} (l : list (string * A)) (i : N) (k : string) (x : A)
  : list (string * A) :=
  match l with
  | [] => [(k, x)]
  | (k', y) :: rest =>
      match array_index k' with
      | Some j => if (j <? i)%N then (k', y) :: insert_index rest i k x
                  else (k, x) :: l
      | None => (k, x) :: l
      end
  end.

(** [obj[k] = x] on the own properties of a plain object.  An existing own
    property is overwritten in place.  Writing [__proto__] where it is not
    an own property goes to the accessor of [Object.prototype] and creates no
    own property. *)
Definition set_own {A : Type} (l : list (string * A)) (k : string) (x : A)
  : list (string * A) :=
  match own_lookup l k with
  | Some _ => replace_own l k x
  | None =>
      if String.eqb k "__proto__" then l
      else match array_index k with
           | Some i => insert_index l i k x
           | None => l ++ [(k, x)]
           end
  end.

Definition set (v : value) (k : string) (x : value) : value :=
  match v with
  | VObj props => VObj (set_own props k x)
  | _ => v
  end.

(** [String(b)] for the built-ins that can end up as a property key;
    functions print as V8 prints its native functions. *)
Definition builtin_to_string (b : builtin) : string :=
  match b with
  | ObjectPrototype => "[object Object]"
  | ArrayPrototype => EmptyString
  | Function name => "function " +:+ name +:+ "() { [native code] }"
  end.

(** *** Coercions *)

(** [String(v)] (template literals, property keys).  Plain objects convert
    through [Object.prototype.toString]. *)
Fixpoint to_string (v : value) : string :=
  match v with
  | VUndef => "undefined"
  | VNull => "null"
  | VBool b => if b then "true" else "false"
  | VNum n => string_of_Z n
  | VStr s => s
  | VArr items =>
      join ","
        (map (fun x => match x with
                       | VUndef | VNull => EmptyString
                       | _ => to_string x
                       end) items)
  | VObj _ => "[object Object]"
  | VBuiltin b => builtin_to_string b
  end.

Definition is_space (c : ascii) : bool :=
  let n := nat_of_ascii c in
  (((9 <=? n) && (n <=? 13)) || (n =? 32) || (n =? 160))%nat.

Fixpoint trim_left (s : string) : string :=
  match s with
  | String c rest => if is_space c then trim_left rest else s
  | EmptyString => EmptyString
  end.

Fixpoint trim_right (s : string) : string :=
  match s with
  | EmptyString => EmptyString
  | String c rest =>
      match trim_right rest with
      | EmptyString => if is_space c then EmptyString else String c EmptyString
      | r => String c r
      end
  end.

Definition parse_unsigned (s : string) : option Z :=
  match s with
  | EmptyString => None
  | _ => option_map Z.of_N (parse_digits 0%N s)
  end.

(** [Number(s)] for decimal integer literals, [None] standing for NaN.
    Blank strings convert to 0. *)
Definition string_to_number (s : string) : option Z :=
  match trim_right (trim_left s) with
  | EmptyString => Some 0
  | String c rest as t =>
      if Ascii.eqb c "-"%char then option_map Z.opp (parse_unsigned rest)
      else if Ascii.eqb c "+"%char then parse_unsigned rest
      else parse_unsigned t
  end.

(** [Number(v)], [None] standing for NaN *)
Definition to_number (v : value) : option Z :=
  match v with
  | VUndef => None
  | VNull => Some 0
  | VBool b => Some (if b then 1 else 0)
  | VNum n => Some n
  | VStr s => string_to_number s
  | _ => string_to_number (to_string v)
  end.

(** [a < v] and [a > v] for a number [a]; every comparison with NaN is false. *)
Definition lt_num (a : Z) (v : value) : bool :=
  match to_number v with Some b => a <? b | None => false end.

Definition gt_num (a : Z) (v : value) : bool :=
  match to_number v with Some b => b <? a | None => false end.

(** [v === s] for a string literal [s] *)
Definition strict_eq_string (v : value) (s : string) : bool :=
  match v with VStr s' => String.eqb s' s | _ => false end.

(** The delay a timer is armed with: the argument is converted to a signed
    32-bit integer and negative delays count as 0. *)
Definition timer_delay (v : value) : Z :=
  match to_number v with
  | Some n => Z.max 0 (to_int32 n)
  | None => 0
  end.

(** *** Object literals, spread and JSON *)

(** Definition of an own property (object literals, spread): like [set_own]
    without the accessor of [__proto__]. *)
Definition define_own {A : Type} (l : list (string * A)) (k : string) (x : A)
  : list (string * A) :=
  match own_lookup l k with
  | Some _ => replace_own l k x
  | None =>
      match array_index k with
      | Some i => insert_index l i k x
      | None => l ++ [(k, x)]
      end
  end.

Fixpoint indexed {A : Type} (i : nat) (l : list A) : list (string * A) :=
  match l with
  | [] => []
  | x :: rest => (string_of_Z (Z.of_nat i), x) :: indexed (S i) rest
  end.

(** The own enumerable properties copied by [{...v}] *)
Definition spread (v : value) : list (string * value) :=
  match v with
  | VObj props => fold_left (fun acc kv => define_own acc (fst kv) (snd kv)) props []
  | VArr items => indexed 0 items
  | VStr s => indexed 0 (map (fun c => VStr (String c EmptyString)) (list_ascii_of_string s))
  | _ => []
  end.

Definition hex_digit (n : nat) : ascii :=
  if (n <? 10)%nat then ascii_of_nat (48 + n) else ascii_of_nat (87 + n).

Definition backslash : ascii := "092"%char.
Definition dquote : ascii := "034"%char.

Definition escape_char (c : ascii) : string :=
  let n := nat_of_ascii c in
  if (n =? 34)%nat then String backslash (String dquote EmptyString)
  else if (n =? 92)%nat then String backslash (String backslash EmptyString)
  else if (n =? 8)%nat then String backslash "b"
  else if (n =? 12)%nat then String backslash "f"
  else if (n =? 10)%nat then String backslash "n"
  else if (n =? 13)%nat then String backslash "r"
  else if (n =? 9)%nat then String backslash "t"
  else if (n <? 32)%nat then
    String backslash ("u00" +:+ String (hex_digit (n / 16)) (String (hex_digit (n mod 16)) EmptyString))
  else String c EmptyString.

Fixpoint escape (s : string) : string :=
  match s with
  | EmptyString => EmptyString
  | String c rest => escape_char c +:+ escape rest
  end.

Definition quote (s : string) : string :=
  String dquote (escape s +:+ String dquote EmptyString).

(** [JSON.stringify(v)]; [None] stands for [undefined], which is what the
    serializer returns for undefined and for functions.  In an object such
    members are left out, in an array they are written as null. *)
Fixpoint JSON_stringify (v : value) : option string :=
  match v with
  | VUndef => None
  | VNull => Some "null"
  | VBool b => Some (if b then "true" else "false")
  | VNum n => Some (string_of_Z n)
  | VStr s => Some (quote s)
  | VArr items =>
      Some ("[" +:+ join ","
              (map (fun x => match JSON_stringify x with
                             | Some s => s
                             | None => "null"
                             end) items) +:+ "]")
  | VObj props =>
      Some ("{" +:+ join ","
              ((fix members (l : list (string * value)) : list string :=
                  match l with
                  | [] => []
                  | (k, x) :: rest =>
                      match JSON_stringify x with
                      | Some s => (quote k +:+ ":" +:+ s) :: members rest
                      | None => members rest
                      end
                  end) props) +:+ "}")
  | VBuiltin ObjectPrototype => Some "{}"
  | VBuiltin ArrayPrototype => Some "[]"
  | VBuiltin (Function _) => None
  end.

(** [n.toString(radix)] for a non-negative integer *)
Fixpoint digits_radix (fuel : nat) (radix n : Z) (acc : string) : string :=
  match fuel with
  | O => acc
  | S fuel' =>
      let acc' := String (hex_digit (Z.to_nat (n mod radix))) acc in
      if n / radix =? 0 then acc' else digits_radix fuel' radix (n / radix) acc'
  end.

Definition toString_radix (radix n : Z) : string :=
  digits_radix (S (Z.to_nat (Z.log2 n))) radix n EmptyString.

(** [s.padStart(2, '0')] *)
Definition padStart2 (s : string) : string :=
  match s with
  | EmptyString => "00"
  | String c EmptyString => String "0"%char s
  | _ => s
  end.

End JS.

(** ** [Map]: entries in insertion order *)

Module JSMap.

Section Operations.
Context {V : Type}.

Definition t : Type := list (string * V).

Definition has (m : t) (k : string) : bool :=
  match JS.own_lookup m k with Some _ => true | None => false end.

Definition get (m : t) (k : string) : option V := JS.own_lookup m k.

(** [m.set(k, v)]: an existing key keeps its position, a new key goes last. *)
Definition set (m : t) (k : string) (v : V) : t :=
  if has m k then JS.replace_own m k v else m ++ [(k, v)].

Fixpoint delete (m : t) (k : string) : t :=
  match m with
  | [] => []
  | (k', v) :: rest => if String.eqb k' k then rest else (k', v) :: delete rest k
  end.

Definition size (m : t) : Z := Z.of_nat (List.length m).

Definition keys (m : t) : list string := map fst m.

Definition values (m : t) : list V := map snd m.

End Operations.

Arguments t : clear implicits.

End JSMap.

(** ** The environment of the library

    What the host offers and the code probes for: the digest of
    [crypto.subtle] (absent outside secure contexts; a digest that fails
    is [None]) and the health of the IndexedDB transactions. *)

Record Env : Type := {
  crypto_subtle : option (string -> option (list Z));
  indexedDB_faulty : bool
}.

(** ** [Config] *)

Module Config.
Import JS.

Definition flags (names : list string) : list (string * value) :=
  map (fun k => (k, VBool true)) names.

Definition defaults : value :=
  VObj
    [ ("timeouts",
       VObj [ ("audio", VNum 5000); ("mediaDevices", VNum 3000);
              ("storage", VNum 2000); ("permissions", VNum 1000);
              ("battery", VNum 2000); ("webRTC", VNum 2000);
              ("fontDetection", VNum 5000) ]);
      ("features",
       VObj (flags
         [ "canvas"; "webgl"; "audio"; "fonts"; "mediaDevices"; "webRTC";
           "battery"; "permissions"; "storage"; "plugins"; "screen";
           "timeZone"; "userAgent"; "language"; "platform"; "connection";
           "touch"; "speechVoices"; "mediaQueries"; "features";
           "performance"; "math"; "dateTime"; "privacy"; "history";
           "codecs"; "orientation"; "deviceMotion" ]));
      ("cache",
       VObj [ ("enabled", VBool true); ("ttl", VNum 3600000);
              ("maxSize", VNum 100); ("storage", VStr "memory") ]);
      ("fontList",
       VArr (map VStr
         [ "Arial"; "Verdana"; "Times New Roman"; "Courier New"; "Roboto";
           "Open Sans"; "Noto Sans"; "Helvetica"; "Tahoma"; "Georgia";
           "Comic Sans MS"; "Impact"; "Lucida Console"; "Palatino";
           "Garamond"; "Bookman"; "Trebuchet MS"; "Arial Black";
           "Comic Sans"; "Courier"; "Lucida Sans Unicode"; "MS Sans Serif";
           "MS Serif"; "Symbol"; "Times"; "Wingdings"; "Zapf Dingbats" ]));
      ("performance",
       VObj [ ("useRequestIdleCallback", VBool true);
              ("fontDetectionBatchSize", VNum 5);
              ("fontDetectionIdleTimeout", VNum 5000) ]) ]%string.

(** [item && typeof item === 'object' && !Array.isArray(item)] *)
Definition isObject (item : value) : bool :=
  truthy item && typeof_object item && negb (is_array item).

(** [deepMerge(target, source)] for one source.  The loop runs over the own
    enumerable properties of [source]; the object found at [target[key]] is
    merged in place, which the model renders by writing the merged object
    back.  When [target[key]] is found on the prototype chain the own
    properties of [target] stay as they are (the merge then lands in the
    shared prototype, which the model does not follow). *)
Fixpoint deepMerge (target source : value) {struct source} : value :=
  match source with
  | VObj src =>
      if isObject target then
        (fix loop (entries : list (string * value)) (tgt : value) {struct entries} : value :=
           match entries with
           | [] => tgt
           | (key, sv) :: rest =>
               loop rest
                 (if isObject sv then
                    let tgt1 :=
                      if truthy (JS.get tgt key) then tgt else JS.set tgt key (VObj []) in
                    match tgt1 with
                    | VObj props =>
                        match own_lookup props key with
                        | Some tk => JS.set tgt1 key (deepMerge tk sv)
                        | None => tgt1
                        end
                    | _ => tgt1
                    end
                  else JS.set tgt key sv)
           end) src target
      else target
  | _ => target
  end.

(** [init(userConfig)]: [deepMerge({}, defaults, userConfig)] *)
Definition init (userConfig : value) : value :=
  deepMerge (deepMerge (VObj []) defaults) userConfig.

Fixpoint walk (keys : list string) (value0 defaultValue : value) : value :=
  match keys with
  | [] => value0
  | key :: rest =>
      if truthy value0 && typeof_object value0 && has_property value0 key
      then walk rest (JS.get value0 key) defaultValue
      else defaultValue
  end.

(** [get(path, defaultValue)] on the tree [current] *)
Definition get (current : value) (path : string) (defaultValue : value) : value :=
  walk (split path) current defaultValue.

End Config.

(** ** Hashing *)

Definition hash_step (hash : Z) (chr : ascii) : Z :=
  JS.to_int32 ((JS.to_int32 (hash * 32) - hash) + Z.of_N (N_of_ascii chr)).

(** [simpleHash(str)]; [None] is the [undefined] that [JSON.stringify] may
    hand over. *)
Definition simpleHash (str : option string) : string :=
  match str with
  | None => "0"
  | Some EmptyString => "0"
  | Some s =>
      JS.toString_radix 36 (Z.abs (fold_left hash_step (list_ascii_of_string s) 0))
  end.

Definition hex_of_bytes (bytes : list Z) : string :=
  JS.join EmptyString (map (fun b => JS.padStart2 (JS.toString_radix 16 b)) bytes).

(** [cryptoHash(str)]: SHA-256 through [crypto.subtle] when it is there and
    works, [simpleHash] otherwise. *)
Definition cryptoHash (env : Env) (str : option string) : string :=
  match str with
  | None => "0"
  | Some EmptyString => "0"
  | Some s =>
      match crypto_subtle env with
      | Some digest =>
          match digest s with
          | Some hashBuffer => hex_of_bytes hashBuffer
          | None => simpleHash str
          end
      | None => simpleHash str
      end
  end.

(** ** Promises, timers and what a call yields

    A promise settles after a delay, counted in milliseconds from the call
    that created it, or stays pending for ever.  An expression evaluates to a
    plain value or to a promise, or throws. *)

Inductive settlement : Type :=
| Fulfilled (v : JS.value)
| Rejected (reason : string).

Inductive promise : Type :=
| Settles (delay : Z) (outcome : settlement)
| Pending.

Inductive returned : Type :=
| Plain (v : JS.value)
| Promised (p : promise).

Inductive completion : Type :=
| Return (r : returned)
| Throw (reason : string).

(** [typeof v.then === 'function'] *)
Definition thenable (v : JS.value) : bool :=
  match JS.lookup v "then" with
  | Some (JS.VBuiltin (JS.Function _)) => true
  | _ => false
  end.

(** [await r].  A plain value is handed back at once.  An object whose own
    [then] is a built-in function is awaited through that function; the model
    takes it never to call back, as is the case of the members of
    [Object.prototype] (those of [Array.prototype] would call back on an
    array-like object). *)
Definition await (r : returned) : promise :=
  match r with
  | Plain v => if thenable v then Pending else Settles 0 (Fulfilled v)
  | Promised p => p
  end.

(** [withTimeout(promise, timeoutType, fallbackValue, context, customTimeout)].
    The timer is armed with [customTimeout || Config.get('timeouts.' +
    timeoutType, 5000)].  [promise.then(..).catch(..)] throws a TypeError
    when [promise] is not a promise.  The race is won by whichever side
    settles first; when both fall on the same millisecond the operation,
    whose task was queued first, wins.  [cancelled] is never set, so the
    wrapped promise passes the result or the rejection through. *)
Definition withTimeout (current : JS.value) (promise0 : returned)
    (timeoutType fallbackValue : JS.value) (context : string)
    (customTimeout : JS.value) : completion :=
  let timeoutMs :=
    if JS.truthy customTimeout then customTimeout
    else Config.get current ("timeouts." +:+ JS.to_string timeoutType) (JS.VNum 5000) in
  let deadline := JS.timer_delay timeoutMs in
  match promise0 with
  | Plain _ => Throw "TypeError"
  | Promised Pending => Return (Promised (Settles deadline (Fulfilled fallbackValue)))
  | Promised (Settles d outcome) =>
      Return (Promised (if d <=? deadline then Settles d outcome
                        else Settles deadline (Fulfilled fallbackValue)))
  end.

(** What a collection cycle does to the probes, in program order per probe. *)
Inductive event : Type :=
| Collected (name : string)
| Executed (name : string)
| CleanedUp (name : string).

(** ** [FingerprintStrategy] *)

Module FingerprintStrategy.
Import JS.

(** [execute] is the behaviour of [execute()] when called at a given instant;
    [cleanup_throws] tells whether [cleanup()] throws. *)
Record t : Type := {
  name : string;
  enabled : bool;
  priority : Z;
  timeout : value;
  requiresAsync : bool;
  execute : Z -> completion;
  getStableComponents : value -> value;
  cleanup_throws : bool
}.

Definition specialCases : list (string * value) :=
  [ ("FontDetection", VStr "fonts"); ("MediaDevices", VStr "mediaDevices");
    ("SpeechVoices", VStr "speechVoices"); ("MediaQueries", VStr "mediaQueries");
    ("FeatureDetection", VStr "features"); ("ScreenOrientation", VStr "orientation");
    ("DeviceMotion", VStr "deviceMotion"); ("MediaCodecs", VStr "codecs");
    ("WebRTC", VStr "webRTC"); ("WebGL", VStr "webgl");
    ("UserAgent", VStr "userAgent"); ("TimeZone", VStr "timeZone") ]%string.

Definition getFeatureKey (s : t) : value :=
  let nameWithoutStrategy := remove_suffix "Strategy" (name s) in
  let special := JS.get (VObj specialCases) nameWithoutStrategy in
  if truthy special then special
  else VStr (lower_first nameWithoutStrategy).

(** [this.enabled && Config.get(`features.${this.getFeatureKey()}`, true)],
    as a condition *)
Definition isEnabled (current : value) (s : t) : bool :=
  enabled s &&
  truthy (Config.get current ("features." +:+ to_string (getFeatureKey s)) (VBool true)).

(** [collect()]: the promise it returns and what it did to the probe.
    [cleanup()] runs in the [finally] block, hence not before the awaited
    operation settles and not at all for a disabled probe. *)
Definition collect (current : value) (now : Z) (s : t) : promise * list event :=
  if negb (isEnabled current s) then
    (Settles 0 (Fulfilled VNull), [Collected (name s)])
  else
    let awaited : promise :=
      match execute s now with
      | Throw reason => Settles 0 (Rejected reason)
      | Return r =>
          if truthy (timeout s) then
            match withTimeout current r (timeout s) VNull (name s) VNull with
            | Throw reason => Settles 0 (Rejected reason)
            | Return wrapped => await wrapped
            end
          else await r
      end in
    match awaited with
    | Pending => (Pending, [Collected (name s); Executed (name s)])
    | Settles d outcome =>
        let result := match outcome with Fulfilled v => v | Rejected _ => VNull end in
        (Settles d (if cleanup_throws s then Rejected "cleanup" else Fulfilled result),
         [Collected (name s); Executed (name s); CleanedUp (name s)])
    end.

End FingerprintStrategy.

(** ** [StrategyRegistry] *)

Module StrategyRegistry.

Definition t : Type := JSMap.t FingerprintStrategy.t.

Definition empty : t := [].

Definition register (strategies : t) (strategy : FingerprintStrategy.t) : t :=
  JSMap.set strategies (FingerprintStrategy.name strategy) strategy.

Definition registerAll (strategies : t) (l : list FingerprintStrategy.t) : t :=
  fold_left register l strategies.

Definition get (strategies : t) (name : string) : option FingerprintStrategy.t :=
  JSMap.get strategies name.

(** [Array.prototype.sort] with the comparator [a.priority - b.priority]: a
    stable sort, written as an insertion sort. *)
Fixpoint insert (s : FingerprintStrategy.t) (l : list FingerprintStrategy.t)
  : list FingerprintStrategy.t :=
  match l with
  | [] => [s]
  | x :: rest =>
      if FingerprintStrategy.priority s <=? FingerprintStrategy.priority x
      then s :: l else x :: insert s rest
  end.

Definition sort (l : list FingerprintStrategy.t) : list FingerprintStrategy.t :=
  fold_right insert [] l.

Definition getEnabledStrategies (current : JS.value) (strategies : t)
  : list FingerprintStrategy.t :=
  sort (List.filter (FingerprintStrategy.isEnabled current) (JSMap.values strategies)).

Definition set_enabled (b : bool) (s : FingerprintStrategy.t) : FingerprintStrategy.t :=
  {| FingerprintStrategy.name := FingerprintStrategy.name s;
     FingerprintStrategy.enabled := b;
     FingerprintStrategy.priority := FingerprintStrategy.priority s;
     FingerprintStrategy.timeout := FingerprintStrategy.timeout s;
     FingerprintStrategy.requiresAsync := FingerprintStrategy.requiresAsync s;
     FingerprintStrategy.execute := FingerprintStrategy.execute s;
     FingerprintStrategy.getStableComponents := FingerprintStrategy.getStableComponents s;
     FingerprintStrategy.cleanup_throws := FingerprintStrategy.cleanup_throws s |}.

Definition toggle (b : bool) (strategies : t) (name : string) : t :=
  match JSMap.get strategies name with
  | Some s => JS.replace_own strategies name (set_enabled b s)
  | None => strategies
  end.

Definition disable : t -> string -> t := toggle false.
Definition enable : t -> string -> t := toggle true.

Definition getAll (strategies : t) : list FingerprintStrategy.t := JSMap.values strategies.

Definition clear (strategies : t) : t := [].

End StrategyRegistry.

(** ** [Cache] *)

Module Cache.
Import JS.

Record entry : Type := {
  key : string;
  data : value;
  timestamp : Z
}.

(** The memory tier is a [Map]; the durable tier is the object store of the
    IndexedDB database, keyed by [key], present once [initIndexedDB] has
    succeeded. *)
Record t : Type := {
  memoryCache : JSMap.t entry;
  indexedDBCache : option (JSMap.t entry);
  indexedDBReady : bool
}.

Definition with_memory (c : t) (m : JSMap.t entry) : t :=
  {| memoryCache := m;
     indexedDBCache := indexedDBCache c;
     indexedDBReady := indexedDBReady c |}.

Definition with_store (c : t) (store : JSMap.t entry) : t :=
  {| memoryCache := memoryCache c;
     indexedDBCache := Some store;
     indexedDBReady := indexedDBReady c |}.

Definition generateCacheKey (stableComponents : value) : string :=
  let keyString := JSON_stringify stableComponents in
  simpleHash keyString.

Definition pick (v : value) (names : list string) : value :=
  VObj (map (fun k => (k, JS.get v k)) names).

Definition getStableComponents (fingerprint : value) : value :=
  let sub (field : string) (names : list string) : value :=
    if truthy (JS.get fingerprint field) then pick (JS.get fingerprint field) names
    else VNull in
  VObj
    [ ("screen", sub "screen" ["width"; "height"; "colorDepth"; "pixelRatio"]);
      ("platform", JS.get fingerprint "platform");
      ("language", JS.get fingerprint "language");
      ("timeZone", sub "timeZone" ["name"; "offsetMinutes"]);
      ("userAgent", sub "userAgent" ["platform"; "vendor"]);
      ("webgl", sub "webgl" ["vendor"; "renderer"; "version"]);
      ("canvas", sub "canvasFingerprint" ["basic"]);
      ("audio", sub "audioFingerprint" ["fingerprint"; "sampleRate"]);
      ("fonts", JS.get fingerprint "fonts");
      ("features", JS.get fingerprint "features") ]%string.

(** [storage === 'indexedDB' && this.indexedDBReady && this.indexedDBCache] *)
Definition durable (current : value) (c : t) : option (JSMap.t entry) :=
  if strict_eq_string (Config.get current "cache.storage" (VStr "memory")) "indexedDB"
     && indexedDBReady c
  then indexedDBCache c else None.

(** [delete(key)] *)
Definition delete (env : Env) (c : t) (k : string) : t :=
  let c1 := with_memory c (JSMap.delete (memoryCache c) k) in
  match indexedDBCache c1 with
  | Some store =>
      if indexedDBReady c1 && negb (indexedDB_faulty env)
      then with_store c1 (JSMap.delete store k) else c1
  | None => c1
  end.

(** [now - entry.timestamp < ttl] *)
Definition fresh (current : value) (now : Z) (e : entry) : bool :=
  lt_num (now - timestamp e) (Config.get current "cache.ttl" (VNum 3600000)).

(** The IndexedDB part of [get(key)], reached on a miss in memory *)
Definition get_durable (env : Env) (current : value) (now : Z) (c : t) (k : string)
  : value * t :=
  match durable current c with
  | Some store =>
      if indexedDB_faulty env then (VNull, c)
      else
        match JSMap.get store k with
        | Some e =>
            if fresh current now e
            then (data e, with_memory c (JSMap.set (memoryCache c) k e))
            else (VNull, delete env c k)
        | None => (VNull, c)
        end
  | None => (VNull, c)
  end.

(** [get(key)] at the instant [now]: the value it resolves with and the
    cache it leaves. *)
Definition get (env : Env) (current : value) (now : Z) (c : t) (k : string)
  : value * t :=
  if negb (truthy (Config.get current "cache.enabled" VNull)) then (VNull, c)
  else
    match JSMap.get (memoryCache c) k with
    | Some e =>
        if fresh current now e then (data e, c)
        else get_durable env current now
               (with_memory c (JSMap.delete (memoryCache c) k)) k
    | None => get_durable env current now c k
    end.

(** [set(key, data)] at the instant [now] *)
Definition set (env : Env) (current : value) (now : Z) (c : t) (k : string)
    (d : value) : t :=
  if negb (truthy (Config.get current "cache.enabled" VNull)) then c
  else
    let maxSize := Config.get current "cache.maxSize" (VNum 100) in
    let e := {| key := k; data := d; timestamp := now |} in
    let m1 := JSMap.set (memoryCache c) k e in
    let m2 :=
      if gt_num (JSMap.size m1) maxSize then
        match JSMap.keys m1 with
        | firstKey :: _ => JSMap.delete m1 firstKey
        | [] => m1
        end
      else m1 in
    let c1 := with_memory c m2 in
    match durable current c1 with
    | Some store =>
        if indexedDB_faulty env then c1 else with_store c1 (JSMap.set store k e)
    | None => c1
    end.

(** [clear()] *)
Definition clear (env : Env) (c : t) : t :=
  let c1 := with_memory c [] in
  match indexedDBCache c1 with
  | Some store =>
      if indexedDBReady c1 && negb (indexedDB_faulty env)
      then with_store c1 [] else c1
  | None => c1
  end.

End Cache.

(** ** [FingerprintCollector] *)

Module FingerprintCollector.
Import JS.

(** *** [Promise.allSettled]

    The built-in records each outcome in the slot of its promise at the
    moment that promise settles, and resolves with the slots once none is
    left empty. *)

Definition settling : Type := (Z * (nat * settlement))%type.

Fixpoint settlings (i : nat) (ps : list promise) : list settling :=
  match ps with
  | [] => []
  | Settles d outcome :: rest => (d, (i, outcome)) :: settlings (S i) rest
  | Pending :: rest => settlings (S i) rest
  end.

Fixpoint insert_settling (e : settling) (l : list settling) : list settling :=
  match l with
  | [] => [e]
  | x :: rest => if fst e <=? fst x then e :: l else x :: insert_settling e rest
  end.

(** The settlings in the order in which they happen *)
Definition completion_order (ps : list promise) : list settling :=
  fold_right insert_settling [] (settlings 0 ps).

Definition record_settling (values : list (option settlement)) (e : settling)
  : list (option settlement) :=
  <[fst (snd e) := Some (snd (snd e))]> values.

Fixpoint all_filled {A : Type} (slots : list (option A)) : option (list A) :=
  match slots with
  | [] => Some []
  | Some x :: rest =>
      match all_filled rest with
      | Some l => Some (x :: l)
      | None => None
      end
  | None :: _ => None
  end.

(** The delay after which [Promise.allSettled(ps)] resolves, and with what;
    [None] when it never does. *)
Definition allSettled (ps : list promise) : option (Z * list settlement) :=
  let order := completion_order ps in
  let values := fold_left record_settling order (replicate (List.length ps) None) in
  match all_filled values with
  | Some results => Some (fold_left Z.max (map fst order) 0, results)
  | None => None
  end.

Definition value_of_settlement (r : settlement) : value :=
  match r with
  | Fulfilled v => v
  | Rejected _ => VNull
  end.

(** [executeStrategies(strategies)] *)
Definition executeStrategies (current : value) (now : Z)
    (strategies : list FingerprintStrategy.t) : option (Z * value) * list event :=
  let promises := map (FingerprintStrategy.collect current now) strategies in
  let trace := concat (map snd promises) in
  match allSettled (map fst promises) with
  | None => (None, trace)
  | Some (d, results) =>
      let strategyResults :=
        fold_left
          (fun acc sr =>
             set_own acc (FingerprintStrategy.name (fst sr)) (value_of_settlement (snd sr)))
          (combine strategies results) [] in
      (Some (d, VObj strategyResults), trace)
  end.

Definition keyMapping : list (string * value) :=
  [ ("TimeZoneStrategy", VStr "timeZone"); ("UserAgentStrategy", VStr "userAgent");
    ("CanvasStrategy", VStr "canvasFingerprint"); ("FontDetectionStrategy", VStr "fonts");
    ("ScreenStrategy", VStr "screen"); ("PluginsStrategy", VStr "plugins");
    ("LanguageStrategy", VStr "language"); ("PlatformStrategy", VStr "platform");
    ("WebGLStrategy", VStr "webgl"); ("AudioStrategy", VStr "audioFingerprint");
    ("MediaDevicesStrategy", VStr "mediaDevices"); ("ConnectionStrategy", VStr "connection");
    ("TouchStrategy", VStr "touch"); ("StorageStrategy", VStr "storage");
    ("PermissionsStrategy", VStr "permissions"); ("SpeechVoicesStrategy", VStr "speechVoices");
    ("BatteryStrategy", VStr "battery"); ("MediaQueriesStrategy", VStr "mediaQueries");
    ("FeatureDetectionStrategy", VStr "features"); ("PerformanceStrategy", VStr "performance");
    ("MathStrategy", VStr "math"); ("DateTimeStrategy", VStr "dateTime");
    ("PrivacyStrategy", VStr "privacy"); ("HistoryStrategy", VStr "history");
    ("MediaCodecsStrategy", VStr "codecs"); ("WebRTCStrategy", VStr "webRTC");
    ("ScreenOrientationStrategy", VStr "orientation");
    ("DeviceMotionStrategy", VStr "deviceMotion") ]%string.

(** [keyMapping[strategyName] || strategyName.toLowerCase().replace('strategy', '')],
    as the property key it is used for *)
Definition fingerprintKey (strategyName : string) : string :=
  let mapped := JS.get (VObj keyMapping) strategyName in
  if truthy mapped then to_string mapped
  else remove_first "strategy" (toLowerCase strategyName).

(** [Object.entries(v)] *)
Definition Object_entries (v : value) : list (string * value) :=
  match v with
  | VObj props => props
  | _ => spread v
  end.

(** [aggregateResults(results)] *)
Definition aggregateResults (results : value) : value :=
  VObj (fold_left (fun fingerprint kv => set_own fingerprint (fingerprintKey (fst kv)) (snd kv))
          (Object_entries results) []).

(** [getStableComponentsForCache()]: the components and the probes it ran *)
Definition getStableComponentsForCache (current : value) (now : Z)
    (registry : StrategyRegistry.t) : value * list event :=
  let syncStrategies :=
    firstn 5
      (List.filter
         (fun s => negb (FingerprintStrategy.requiresAsync s)
                   && (FingerprintStrategy.priority s <=? 20))
         (StrategyRegistry.getEnabledStrategies current registry)) in
  let components :=
    fold_left
      (fun components s =>
         match FingerprintStrategy.execute s now with
         | Throw _ => components
         | Return (Promised _) => components
         | Return (Plain result) =>
             if truthy result && thenable result then components
             else
               let stable := FingerprintStrategy.getStableComponents s result in
               if truthy stable
               then set_own components (FingerprintStrategy.name s) stable
               else components
         end)
      syncStrategies [] in
  (VObj components, map (fun s => Executed (FingerprintStrategy.name s)) syncStrategies).

(** The two process-wide singletons *)
Record world : Type := {
  current : value;
  cache : Cache.t
}.

(** What a call of [collect] amounts to: the delay after which it resolves and
    the composite it resolves with ([None] when it never resolves), the
    singletons as it leaves them, and what it did to the probes. *)
Record run : Type := {
  outcome : option (Z * value);
  final : world;
  trace : list event
}.

Definition version : string := "3.0.0".

Definition cached_payload (fingerprintObject : value) (fingerprintHash : string)
    (timestamp : Z) : value :=
  VObj [ ("fingerprint", fingerprintObject); ("fingerprintHash", VStr fingerprintHash);
         ("timestamp", VNum timestamp); ("version", VStr version) ]%string.

Definition key_truthy (cacheKey : option string) : bool :=
  match cacheKey with
  | Some k => negb (String.eqb k EmptyString)
  | None => false
  end.

(** The part of [collect] that runs after a cache miss *)
Definition generate (env : Env) (registry : StrategyRegistry.t) (w : world) (now : Z)
    (cacheKey : option string) (before : list event) : run :=
  let strategies := StrategyRegistry.getEnabledStrategies (current w) registry in
  match executeStrategies (current w) now strategies with
  | (None, events) => {| outcome := None; final := w; trace := before ++ events |}
  | (Some (d, results), events) =>
      let fingerprintObject := aggregateResults results in
      let fingerprintString := JSON_stringify fingerprintObject in
      let fingerprintHash := cryptoHash env fingerprintString in
      let finished := now + d in
      let result :=
        [ ("fingerprint", fingerprintObject); ("fingerprintHash", VStr fingerprintHash);
          ("timestamp", VNum finished); ("version", VStr version);
          ("cached", VBool false) ]%string in
      let enabled := truthy (Config.get (current w) "cache.enabled" (VBool true)) in
      let stored (k : string) : run :=
        {| outcome := Some (d, VObj (set_own result "cacheKey" (VStr k)));
           final :=
             {| current := current w;
                cache := Cache.set env (current w) finished (cache w) k
                           (cached_payload fingerprintObject fingerprintHash finished) |};
           trace := before ++ events |} in
      if enabled && key_truthy cacheKey then
        match cacheKey with
        | Some k => stored k
        | None => {| outcome := Some (d, VObj result); final := w; trace := before ++ events |}
        end
      else if enabled && negb (key_truthy cacheKey) then
        stored (Cache.generateCacheKey (Cache.getStableComponents fingerprintObject))
      else {| outcome := Some (d, VObj result); final := w; trace := before ++ events |}
  end.

(** [collect(userConfig)] called at the instant [now] *)
Definition collect (env : Env) (registry : StrategyRegistry.t) (w : world) (now : Z)
    (userConfig : list (string * value)) : run :=
  let w0 :=
    match userConfig with
    | [] => w
    | _ :: _ => {| current := Config.init (VObj userConfig); cache := cache w |}
    end in
  if truthy (Config.get (current w0) "cache.enabled" (VBool true)) then
    let '(stableComponents, events) := getStableComponentsForCache (current w0) now registry in
    let cacheKey := Cache.generateCacheKey stableComponents in
    let '(cachedResult, cache1) := Cache.get env (current w0) now (cache w0) cacheKey in
    let w1 := {| current := current w0; cache := cache1 |} in
    if truthy cachedResult then
      {| outcome :=
           Some (0, VObj (define_own (define_own (spread cachedResult) "cached" (VBool true))
                            "cacheKey" (VStr cacheKey)));
         final := w1;
         trace := events |}
    else generate env registry w1 now (Some cacheKey) events
  else generate env registry w0 now None [].

End FingerprintCollector.

(** * Vocabulary of the properties and sample inputs *)


(** The entries of a [Map] under the keys other than [k], in their order *)
Definition others {V : Type} (k : string) (m : JSMap.t V) : JSMap.t V :=
  List.filter (fun kv => negb (String.eqb (fst kv) k)) m.


(** How a promise settles, if it does *)
Definition settled (p : promise) : option settlement :=
  match p with
  | Settles _ outcome => Some outcome
  | Pending => None
  end.



(** What [executeStrategies] records for a probe taken alone: the value its
    [collect()] is fulfilled with, [null] when it is rejected; [None] when it
    never settles. *)
Definition own_result (current : JS.value) (now : Z) (s : FingerprintStrategy.t)
  : option JS.value :=
  option_map FingerprintCollector.value_of_settlement
    (settled (fst (FingerprintStrategy.collect current now s))).

Definition result_or_null (current : JS.value) (now : Z) (s : FingerprintStrategy.t)
  : JS.value :=
  match own_result current now s with
  | Some v => v
  | None => JS.VNull
  end.


(** The content of the composite a run resolves with: its components and its
    hash *)
Definition content (r : FingerprintCollector.run) : option (JS.value * JS.value) :=
  option_map (fun dc => (JS.get (snd dc) "fingerprint", JS.get (snd dc) "fingerprintHash"))
    (FingerprintCollector.outcome r).


(** The object [executeStrategies] builds from the probes' own results *)
Definition strategyResults (current : JS.value) (now : Z)
    (strategies : list FingerprintStrategy.t) : list (string * JS.value) :=
  fold_left
    (fun acc s => JS.set_own acc (FingerprintStrategy.name s) (result_or_null current now s))
    strategies [].







(** Probes of one priority *)
Definition has_priority (p : Z) (s : FingerprintStrategy.t) : bool :=
  FingerprintStrategy.priority s =? p.

Module Sample.
Import JS.

Definition env : Env := {| crypto_subtle := None; indexedDB_faulty := false |}.

Definition no_cache : Cache.t :=
  {| Cache.memoryCache := []; Cache.indexedDBCache := None; Cache.indexedDBReady := false |}.

Definition probe (name : string) (priority : Z) (timeout : value) (behaviour : completion)
  : FingerprintStrategy.t :=
  {| FingerprintStrategy.name := name;
     FingerprintStrategy.enabled := true;
     FingerprintStrategy.priority := priority;
     FingerprintStrategy.timeout := timeout;
     FingerprintStrategy.requiresAsync := false;
     FingerprintStrategy.execute := fun _ => behaviour;
     FingerprintStrategy.getStableComponents := fun result => result;
     FingerprintStrategy.cleanup_throws := false |}.



Definition canvas_old : FingerprintStrategy.t :=
  probe "CanvasStrategy" 10 VNull (Return (Plain (VStr "old"))).

Definition canvas_new : FingerprintStrategy.t :=
  probe "CanvasStrategy" 10 VNull (Return (Plain (VStr "new"))).

Definition screen : FingerprintStrategy.t :=
  probe "ScreenStrategy" 10 VNull (Return (Plain (VStr "1920x1080"))).

(** [Config.init({cache: {enabled: false}})] *)
Definition disabled_config : value :=
  Config.init (VObj [("cache", VObj [("enabled", VBool false)])]%string).

(** [Config.init({cache: {maxSize: 2}})] *)
Definition small_config : value :=
  Config.init (VObj [("cache", VObj [("maxSize", VNum 2)])]%string).

(** [Config.init({cache: {storage: 'indexedDB', maxSize: 1}})] *)
Definition durable_config : value :=
  Config.init (VObj [("cache", VObj [("storage", VStr "indexedDB"); ("maxSize", VNum 1)])]%string).

Definition stored (k : string) (t : Z) : Cache.entry :=
  {| Cache.key := k; Cache.data := VObj [("fingerprintHash", VStr k)]%string;
     Cache.timestamp := t |}.

(** A memory tier holding [A] *)
Definition one_entry : Cache.t :=
  {| Cache.memoryCache := [("A"%string, stored "A" 0)];
     Cache.indexedDBCache := None;
     Cache.indexedDBReady := false |}.

(** A memory tier holding [A] over a durable tier holding [B] *)
Definition two_tiers : Cache.t :=
  {| Cache.memoryCache := [("A"%string, stored "A" 0)];
     Cache.indexedDBCache := Some [("B"%string, stored "B" 0)];
     Cache.indexedDBReady := true |}.

Definition timezone : FingerprintStrategy.t :=
  probe "TimeZoneStrategy" 1 VNull (Return (Plain (VStr "UTC"))).

Definition failing : FingerprintStrategy.t :=
  probe "BadStrategy" 2 VNull (Throw "boom").

(** A probe with [timeout = 50] whose execution takes 500ms *)
Definition slow : FingerprintStrategy.t :=
  probe "SlowStrategy" 30 (VNum 50) (Return (Promised (Settles 500 (Fulfilled (VStr "late"))))).

Definition registry : StrategyRegistry.t :=
  StrategyRegistry.registerAll StrategyRegistry.empty [slow; failing; timezone].

Definition world : FingerprintCollector.world :=
  {| FingerprintCollector.current := Config.defaults;
     FingerprintCollector.cache := no_cache |}.


Definition composite_of (r : FingerprintCollector.run) : value :=
  match FingerprintCollector.outcome r with
  | Some (_, composite) => composite
  | None => VUndef
  end.

(** A first call at 1000ms on an empty cache, and a second one a second
    after the first has resolved *)
Definition first_run : FingerprintCollector.run :=
  FingerprintCollector.collect env registry world 1000 [].


Definition after (delay : Z) (name : string) (result : string) : FingerprintStrategy.t :=
  probe name 40 VNull (Return (Promised (Settles delay (Fulfilled (VStr result))))).

(** The same two probes, completing in one order and in the other *)
Definition canvas_first : StrategyRegistry.t :=
  StrategyRegistry.registerAll StrategyRegistry.empty
    [after 10 "CanvasStrategy" "c"; after 20 "ScreenStrategy" "s"].


(** The two probes of [canvas_first], registered in the other order *)
Definition screen_registered_first : StrategyRegistry.t :=
  StrategyRegistry.registerAll StrategyRegistry.empty
    [after 20 "ScreenStrategy" "s"; after 10 "CanvasStrategy" "c"].

End Sample.

(** * Properties *)

(** ** Number formatting *)

(** [toString_radix] never runs out of fuel: a number below [2 ^ k] has at
    most [k] digits in any radix, so that more fuel changes nothing. *)
Lemma digits_radix_enough (radix : Z) (k extra : nat) (n : Z) (acc : string) :
  2 <= radix -> 0 <= n < 2 ^ Z.of_nat (S k) ->
  JS.digits_radix (S k + extra) radix n acc = JS.digits_radix (S k) radix n acc.
Proof.
  intros Hr. revert n acc. induction k as [|k IH]; intros n acc Hn.
  - assert (n / radix = 0) as Hq by (apply Z.div_small; simpl in Hn; lia).
    simpl. rewrite Hq. reflexivity.
  - change (JS.digits_radix (S (S k) + extra) radix n acc)
      with (let acc' := String (JS.hex_digit (Z.to_nat (n mod radix))) acc in
            if n / radix =? 0 then acc'
            else JS.digits_radix (S k + extra) radix (n / radix) acc').
    change (JS.digits_radix (S (S k)) radix n acc)
      with (let acc' := String (JS.hex_digit (Z.to_nat (n mod radix))) acc in
            if n / radix =? 0 then acc'
            else JS.digits_radix (S k) radix (n / radix) acc').
    cbv zeta. destruct (n / radix =? 0); [reflexivity|].
    apply IH. split; [apply Z.div_pos; lia|].
    apply Z.div_lt_upper_bound; [lia|].
    replace (2 ^ Z.of_nat (S (S k))) with (2 * 2 ^ Z.of_nat (S k)) in Hn
      by (rewrite (Nat2Z.inj_succ (S k)), Z.pow_succ_r by lia; reflexivity).
    nia.
Qed.

Lemma toString_radix_enough (radix n : Z) (extra : nat) :
  2 <= radix -> 0 <= n ->
  JS.digits_radix (S (Z.to_nat (Z.log2 n)) + extra) radix n EmptyString
  = JS.toString_radix radix n.
Proof.
  intros Hr Hn. unfold JS.toString_radix. apply digits_radix_enough; [exact Hr|].
  split; [exact Hn|].
  rewrite Nat2Z.inj_succ, Z2Nat.id by apply Z.log2_nonneg.
  destruct (Z.eq_dec n 0) as [->|Hne]; [reflexivity|].
  apply Z.log2_spec. lia.
Qed.

(** ** [Config.get] *)



Lemma array_has_no_c (items : list JS.value) : JS.has_property (JS.VArr items) "c" = false.
Proof. reflexivity. Qed.




(** ** [StrategyRegistry] *)

Lemma own_lookup_app {A : Type} (l1 l2 : list (string * A)) (k : string) :
  JS.own_lookup (l1 ++ l2) k =
  match JS.own_lookup l1 k with Some x => Some x | None => JS.own_lookup l2 k end.
Proof.
  induction l1 as [|[k' x] l1 IH]; simpl; [reflexivity|].
  destruct (String.eqb k' k); auto.
Qed.

Lemma replace_own_middle {A : Type} (l1 l2 : list (string * A)) (k : string) (old x : A) :
  JS.own_lookup l1 k = None ->
  JS.replace_own (l1 ++ (k, old) :: l2) k x = l1 ++ (k, x) :: l2.
Proof.
  induction l1 as [|[k' y] l1 IH]; simpl; intros H.
  - rewrite String.eqb_refl. reflexivity.
  - destruct (String.eqb k' k); [discriminate|]. rewrite IH; auto.
Qed.

Lemma keys_replace_own {A : Type} (l : list (string * A)) (k : string) (x : A) :
  map fst (JS.replace_own l k x) = map fst l.
Proof.
  induction l as [|[k' y] l IH]; simpl; [reflexivity|].
  destruct (String.eqb k' k); simpl; congruence.
Qed.

Lemma filter_insert (p : Z) (s : FingerprintStrategy.t) (l : list FingerprintStrategy.t) :
  List.filter (has_priority p) (StrategyRegistry.insert s l) =
  List.filter (has_priority p) (s :: l).
Proof.
  induction l as [|x l IH]; [reflexivity|].
  cbn [StrategyRegistry.insert].
  destruct (FingerprintStrategy.priority s <=? FingerprintStrategy.priority x) eqn:Hle;
    [reflexivity|].
  cbn [List.filter] in *. rewrite IH. unfold has_priority.
  destruct (FingerprintStrategy.priority x =? p) eqn:Hx;
    destruct (FingerprintStrategy.priority s =? p) eqn:Hs; try reflexivity.
  lia.
Qed.

(** The sort is stable: within one priority the order of the input is kept. *)
Lemma sort_stable (p : Z) (l : list FingerprintStrategy.t) :
  List.filter (has_priority p) (StrategyRegistry.sort l) = List.filter (has_priority p) l.
Proof.
  induction l as [|x l IH]; [reflexivity|].
  change (StrategyRegistry.sort (x :: l))
    with (StrategyRegistry.insert x (StrategyRegistry.sort l)).
  rewrite filter_insert. cbn [List.filter]. rewrite IH. reflexivity.
Qed.

(** C9: registering a probe under a name that is already registered replaces
    the stored probe where the first registration put it, the order of the
    names being unchanged; within one priority [getEnabledStrategies]
    therefore lists the new probe at the position of the first
    registration. *)
Theorem C9_register_keeps_position (current : JS.value)
    (before after : StrategyRegistry.t) (old strategy : FingerprintStrategy.t) :
  JS.own_lookup before (FingerprintStrategy.name strategy) = None ->
  let strategies := before ++ (FingerprintStrategy.name strategy, old) :: after in
  StrategyRegistry.register strategies strategy =
    before ++ (FingerprintStrategy.name strategy, strategy) :: after /\
  JSMap.keys (StrategyRegistry.register strategies strategy) = JSMap.keys strategies /\
  StrategyRegistry.get (StrategyRegistry.register strategies strategy)
    (FingerprintStrategy.name strategy) = Some strategy /\
  forall p,
    List.filter (has_priority p)
      (StrategyRegistry.getEnabledStrategies current
         (StrategyRegistry.register strategies strategy)) =
    List.filter (has_priority p)
      (List.filter (FingerprintStrategy.isEnabled current)
         (JSMap.values before ++ strategy :: JSMap.values after)).
Proof.
  intros Hfresh strategies.
  assert (Hreg : StrategyRegistry.register strategies strategy =
                 before ++ (FingerprintStrategy.name strategy, strategy) :: after).
  { unfold StrategyRegistry.register, JSMap.set, JSMap.has, strategies.
    rewrite own_lookup_app, Hfresh. simpl. rewrite String.eqb_refl.
    apply replace_own_middle, Hfresh. }
  split; [exact Hreg|]. split; [|split].
  - unfold StrategyRegistry.register, JSMap.set, JSMap.has, strategies.
    rewrite own_lookup_app, Hfresh. simpl. rewrite String.eqb_refl.
    apply keys_replace_own.
  - rewrite Hreg. unfold StrategyRegistry.get, JSMap.get.
    rewrite own_lookup_app, Hfresh. simpl. rewrite String.eqb_refl. reflexivity.
  - intros p. rewrite Hreg. unfold StrategyRegistry.getEnabledStrategies.
    rewrite sort_stable. unfold JSMap.values. rewrite map_app. reflexivity.
Qed.

Lemma C9_register_keeps_position_witness :
  let strategies := [] ++ ("CanvasStrategy"%string, Sample.canvas_old)
                          :: [("ScreenStrategy"%string, Sample.screen)] in
  StrategyRegistry.register strategies Sample.canvas_new =
    [] ++ ("CanvasStrategy"%string, Sample.canvas_new)
          :: [("ScreenStrategy"%string, Sample.screen)] /\
  JSMap.keys (StrategyRegistry.register strategies Sample.canvas_new) = JSMap.keys strategies /\
  StrategyRegistry.get (StrategyRegistry.register strategies Sample.canvas_new)
    "CanvasStrategy" = Some Sample.canvas_new /\
  forall p,
    List.filter (has_priority p)
      (StrategyRegistry.getEnabledStrategies Config.defaults
         (StrategyRegistry.register strategies Sample.canvas_new)) =
    List.filter (has_priority p)
      (List.filter (FingerprintStrategy.isEnabled Config.defaults)
         (JSMap.values [] ++ Sample.canvas_new
            :: JSMap.values [("ScreenStrategy"%string, Sample.screen)])).
Proof.
  apply (C9_register_keeps_position Config.defaults []
           [("ScreenStrategy"%string, Sample.screen)] Sample.canvas_old Sample.canvas_new).
  reflexivity.
Defined.

(** ** [Map] and the memory tier *)

Section MapFacts.
Context {V : Type}.
Implicit Types (m : JSMap.t V) (k : string) (v : V).

Lemma own_lookup_replace_eq m k v :
  JS.own_lookup m k <> None -> JS.own_lookup (JS.replace_own m k v) k = Some v.
Proof.
  induction m as [|[k' y] m IH]; simpl; intros H; [congruence|].
  destruct (String.eqb k' k) eqn:E; simpl; rewrite E; auto.
Qed.

Lemma own_lookup_replace_ne m k k' v :
  k' <> k -> JS.own_lookup (JS.replace_own m k v) k' = JS.own_lookup m k'.
Proof.
  intros Hne. induction m as [|[k0 y] m IH]; simpl; [reflexivity|].
  destruct (String.eqb k0 k) eqn:E; simpl.
  - apply String.eqb_eq in E. subst k0.
    destruct (String.eqb k k') eqn:E'; [|reflexivity].
    apply String.eqb_eq in E'. congruence.
  - rewrite IH. reflexivity.
Qed.

Lemma map_get_set_eq m k v : JSMap.get (JSMap.set m k v) k = Some v.
Proof.
  unfold JSMap.get, JSMap.set, JSMap.has.
  destruct (JS.own_lookup m k) eqn:E.
  - apply own_lookup_replace_eq. congruence.
  - rewrite own_lookup_app, E. simpl. rewrite String.eqb_refl. reflexivity.
Qed.

Lemma map_get_set_ne m k k' v : k' <> k -> JSMap.get (JSMap.set m k v) k' = JSMap.get m k'.
Proof.
  intros Hne. unfold JSMap.get, JSMap.set, JSMap.has.
  destruct (JS.own_lookup m k) eqn:E.
  - apply own_lookup_replace_ne, Hne.
  - rewrite own_lookup_app. simpl.
    destruct (String.eqb k k') eqn:E'.
    + apply String.eqb_eq in E'. congruence.
    + destruct (JS.own_lookup m k'); reflexivity.
Qed.

Lemma map_get_delete_ne m k k' : k' <> k -> JSMap.get (JSMap.delete m k) k' = JSMap.get m k'.
Proof.
  intros Hne. unfold JSMap.get. induction m as [|[k0 y] m IH]; simpl; [reflexivity|].
  destruct (String.eqb k0 k) eqn:E; simpl.
  - apply String.eqb_eq in E. subst k0.
    destruct (String.eqb k k') eqn:E'; [|reflexivity].
    apply String.eqb_eq in E'. congruence.
  - rewrite IH. reflexivity.
Qed.

Lemma map_delete_head m k v : JSMap.delete ((k, v) :: m) k = m.
Proof. simpl. rewrite String.eqb_refl. reflexivity. Qed.

Lemma others_delete m k : others k (JSMap.delete m k) = others k m.
Proof.
  induction m as [|[k0 y] m IH]; simpl; [reflexivity|].
  destruct (String.eqb k0 k) eqn:E; simpl; rewrite ?E; simpl; congruence.
Qed.

Lemma others_replace m k v : others k (JS.replace_own m k v) = others k m.
Proof.
  induction m as [|[k0 y] m IH]; simpl; [reflexivity|].
  destruct (String.eqb k0 k) eqn:E; simpl; rewrite ?E; simpl; congruence.
Qed.

Lemma others_set m k v : others k (JSMap.set m k v) = others k m.
Proof.
  unfold JSMap.set. destruct (JSMap.has m k); [apply others_replace|].
  unfold others. rewrite List.filter_app. simpl. rewrite String.eqb_refl. simpl.
  apply app_nil_r.
Qed.

Lemma others_lookup m k k' : k' <> k -> JS.own_lookup (others k m) k' = JS.own_lookup m k'.
Proof.
  intros Hne. induction m as [|[k0 y] m IH]; simpl; [reflexivity|].
  destruct (String.eqb k0 k) eqn:E; simpl.
  - apply String.eqb_eq in E. subst k0.
    destruct (String.eqb k k') eqn:E'; [|exact IH].
    apply String.eqb_eq in E'. congruence.
  - rewrite IH. reflexivity.
Qed.

End MapFacts.

(** ** [Cache.set] *)

Lemma durable_with_memory (current : JS.value) (c : Cache.t) (m : JSMap.t Cache.entry) :
  Cache.durable current (Cache.with_memory c m) = Cache.durable current c.
Proof. reflexivity. Qed.

(** The memory tier after [set], when caching is enabled *)
Lemma set_memory (env : Env) (current : JS.value) (now : Z) (c : Cache.t)
    (k : string) (d : JS.value) :
  JS.truthy (Config.get current "cache.enabled" JS.VNull) = true ->
  Cache.memoryCache (Cache.set env current now c k d) =
  let written :=
    JSMap.set (Cache.memoryCache c) k
      {| Cache.key := k; Cache.data := d; Cache.timestamp := now |} in
  if JS.gt_num (JSMap.size written) (Config.get current "cache.maxSize" (JS.VNum 100))
  then match JSMap.keys written with
       | firstKey :: _ => JSMap.delete written firstKey
       | [] => written
       end
  else written.
Proof.
  intros Hen. unfold Cache.set. rewrite Hen. cbn [negb].
  rewrite durable_with_memory.
  destruct (Cache.durable current c); [destruct (indexedDB_faulty env)|]; reflexivity.
Qed.

Lemma delete_first_key {V : Type} (m : JSMap.t V) :
  match JSMap.keys m with
  | firstKey :: _ => JSMap.delete m firstKey
  | [] => m
  end = tl m.
Proof. destruct m as [|[k v] m]; [reflexivity|]. apply map_delete_head. Qed.

(** C4, as stated, fails: when caching is switched off, [set] writes
    nothing to the memory tier. *)
Lemma C4_counterexample :
  Config.get Sample.disabled_config "cache.enabled" JS.VNull = JS.VBool false /\
  Cache.memoryCache
    (Cache.set Sample.env Sample.disabled_config 0 Sample.no_cache "A" (JS.VStr "payload"))
  = [] /\
  JSMap.get
    (Cache.memoryCache
       (Cache.set Sample.env Sample.disabled_config 0 Sample.no_cache "A" (JS.VStr "payload")))
    "A" = None.
Proof. repeat split; reflexivity. Qed.

(** C4, amended: when caching is enabled ([cache.enabled] is truthy),
    [set(key, payload)] writes the entry to the memory tier and, if the size
    of the memory tier then exceeds [maxSize], removes the entry that comes
    first in insertion order, whatever was read since; when caching is
    disabled [set] changes nothing.  With [maxSize = 2], setting [A], then
    [B], then [C] in an empty memory tier leaves exactly [B] and [C]. *)
Theorem C4_set_fifo (env : Env) (current : JS.value) (maxSize : Z) :
  Config.get current "cache.maxSize" (JS.VNum 100) = JS.VNum maxSize ->
  (JS.truthy (Config.get current "cache.enabled" JS.VNull) = false ->
   forall now c k d, Cache.set env current now c k d = c) /\
  (JS.truthy (Config.get current "cache.enabled" JS.VNull) = true ->
   (forall now c k d,
      let e := {| Cache.key := k; Cache.data := d; Cache.timestamp := now |} in
      let written := JSMap.set (Cache.memoryCache c) k e in
      JSMap.get written k = Some e /\
      Cache.memoryCache (Cache.set env current now c k d) =
        (if maxSize <? JSMap.size written then tl written else written)) /\
   (maxSize = 2 ->
    forall c a b c' ta tb tc pa pb pc,
      Cache.memoryCache c = [] -> a <> b -> a <> c' -> b <> c' ->
      JSMap.keys
        (Cache.memoryCache
           (Cache.set env current tc
              (Cache.set env current tb (Cache.set env current ta c a pa) b pb) c' pc))
      = [b; c'])).
Proof.
  intros Hmax. split.
  { intros Hoff now c k d. unfold Cache.set. rewrite Hoff. reflexivity. }
  intros Hen.
  assert (Hset : forall now c k d,
     Cache.memoryCache (Cache.set env current now c k d) =
       let written := JSMap.set (Cache.memoryCache c) k
                        {| Cache.key := k; Cache.data := d; Cache.timestamp := now |} in
       if maxSize <? JSMap.size written then tl written else written).
  { intros. rewrite set_memory by exact Hen. cbv zeta. rewrite Hmax.
    unfold JS.gt_num. cbn [JS.to_number]. rewrite delete_first_key. reflexivity. }
  split.
  - intros now c k d e written. split; [apply map_get_set_eq | apply Hset].
  - intros -> c a b c' ta tb tc pa pb pc Hempty Hab Hac Hbc.
    rewrite !Hset, Hempty. cbv zeta.
    apply String.eqb_neq in Hab, Hac, Hbc.
    unfold JSMap.set, JSMap.has. simpl. rewrite Hab. simpl. rewrite Hac, Hbc. reflexivity.
Qed.

Lemma C4_set_fifo_witness :
  (forall now c k d,
     let e := {| Cache.key := k; Cache.data := d; Cache.timestamp := now |} in
     let written := JSMap.set (Cache.memoryCache c) k e in
     JSMap.get written k = Some e /\
     Cache.memoryCache (Cache.set Sample.env Sample.small_config now c k d) =
       (if 2 <? JSMap.size written then tl written else written)) /\
  JSMap.keys
    (Cache.memoryCache
       (Cache.set Sample.env Sample.small_config 3
          (Cache.set Sample.env Sample.small_config 2
             (Cache.set Sample.env Sample.small_config 1 Sample.no_cache
                "A" (JS.VStr "a")) "B" (JS.VStr "b")) "C" (JS.VStr "c")))
  = ["B"; "C"]%string /\
  Cache.set Sample.env Sample.disabled_config 1 Sample.one_entry "B" (JS.VStr "b")
  = Sample.one_entry.
Proof.
  destruct (C4_set_fifo Sample.env Sample.small_config 2 eq_refl) as [_ Hon].
  destruct (Hon eq_refl) as [Hwrite Hfifo].
  destruct (C4_set_fifo Sample.env Sample.disabled_config 100 eq_refl) as [Hoff _].
  split; [exact Hwrite|]. split.
  - apply Hfifo; [reflexivity | reflexivity | discriminate | discriminate | discriminate].
  - apply Hoff. reflexivity.
Defined.

(** ** [Cache.get] *)

Lemma fresh_number (current : JS.value) (now ttl : Z) (e : Cache.entry) :
  Config.get current "cache.ttl" (JS.VNum 3600000) = JS.VNum ttl ->
  Cache.fresh current now e = (now - Cache.timestamp e <? ttl).
Proof. intros H. unfold Cache.fresh. rewrite H. reflexivity. Qed.

Lemma get_memory_hit (env : Env) (current : JS.value) (now ttl : Z) (c : Cache.t)
    (k : string) (e : Cache.entry) :
  JS.truthy (Config.get current "cache.enabled" JS.VNull) = true ->
  Config.get current "cache.ttl" (JS.VNum 3600000) = JS.VNum ttl ->
  JSMap.get (Cache.memoryCache c) k = Some e ->
  now - Cache.timestamp e < ttl ->
  Cache.get env current now c k = (Cache.data e, c).
Proof.
  intros Hen Httl He Hage. unfold Cache.get. rewrite Hen, He. cbn [negb].
  rewrite (fresh_number current now ttl e Httl).
  destruct (Z.ltb_spec (now - Cache.timestamp e) ttl); [reflexivity | lia].
Qed.

(** C5, as stated, fails: when caching is switched off, [get] answers
    [null] for an entry that is present and younger than [ttl]. *)
Lemma C5_counterexample :
  JSMap.get (Cache.memoryCache Sample.one_entry) "A" = Some (Sample.stored "A" 0) /\
  Config.get Sample.disabled_config "cache.ttl" (JS.VNum 3600000) = JS.VNum 3600000 /\
  1 - Cache.timestamp (Sample.stored "A" 0) < 3600000 /\
  fst (Cache.get Sample.env Sample.disabled_config 1 Sample.one_entry "A") = JS.VNull /\
  fst (Cache.get Sample.env Sample.disabled_config 1 Sample.one_entry "A")
    <> Cache.data (Sample.stored "A" 0).
Proof. repeat split; try reflexivity. discriminate. Qed.

(** C5, amended: when caching is enabled ([cache.enabled] is truthy),
    [get(key)] answers the payload held in memory when an entry for [key] is
    there with [now - insertedAt < ttl], and leaves the cache as it is.  An
    entry whose age is at least [ttl] is removed from memory on that access,
    which then proceeds as a miss does: with the lookup in the durable tier
    when that tier is in use, and with [null] otherwise.  When caching is
    disabled [get] answers [null] and removes nothing. *)
Theorem C5_get_ttl (env : Env) (current : JS.value) (now ttl : Z) (c : Cache.t) (k : string) :
  Config.get current "cache.ttl" (JS.VNum 3600000) = JS.VNum ttl ->
  (JS.truthy (Config.get current "cache.enabled" JS.VNull) = false ->
   Cache.get env current now c k = (JS.VNull, c)) /\
  (JS.truthy (Config.get current "cache.enabled" JS.VNull) = true ->
   (forall e, JSMap.get (Cache.memoryCache c) k = Some e ->
              now - Cache.timestamp e < ttl ->
              Cache.get env current now c k = (Cache.data e, c)) /\
   (forall e, JSMap.get (Cache.memoryCache c) k = Some e ->
              ttl <= now - Cache.timestamp e ->
              Cache.get env current now c k =
              Cache.get_durable env current now
                (Cache.with_memory c (JSMap.delete (Cache.memoryCache c) k)) k) /\
   (JSMap.get (Cache.memoryCache c) k = None ->
    Cache.get env current now c k = Cache.get_durable env current now c k) /\
   (forall c1, Cache.durable current c1 = None ->
               Cache.get_durable env current now c1 k = (JS.VNull, c1)) /\
   (Cache.durable current c = None ->
    (forall e, JSMap.get (Cache.memoryCache c) k = Some e ->
               ttl <= now - Cache.timestamp e ->
               Cache.get env current now c k =
               (JS.VNull, Cache.with_memory c (JSMap.delete (Cache.memoryCache c) k))) /\
    (JSMap.get (Cache.memoryCache c) k = None ->
     Cache.get env current now c k = (JS.VNull, c)))).
Proof.
  intros Httl. split.
  { intros Hoff. unfold Cache.get. rewrite Hoff. reflexivity. }
  intros Hen.
  assert (Hold : forall e, JSMap.get (Cache.memoryCache c) k = Some e ->
             ttl <= now - Cache.timestamp e ->
             Cache.get env current now c k =
             Cache.get_durable env current now
               (Cache.with_memory c (JSMap.delete (Cache.memoryCache c) k)) k).
  { intros e He Hage. unfold Cache.get. rewrite Hen, He. cbn [negb].
    rewrite (fresh_number current now ttl e Httl).
    destruct (Z.ltb_spec (now - Cache.timestamp e) ttl); [lia | reflexivity]. }
  assert (Hmiss : JSMap.get (Cache.memoryCache c) k = None ->
                  Cache.get env current now c k = Cache.get_durable env current now c k).
  { intros He. unfold Cache.get. rewrite Hen, He. reflexivity. }
  assert (Hnone : forall c1, Cache.durable current c1 = None ->
              Cache.get_durable env current now c1 k = (JS.VNull, c1)).
  { intros c1 Hd. unfold Cache.get_durable. rewrite Hd. reflexivity. }
  repeat split; auto.
  - intros e He Hage. apply (get_memory_hit env current now ttl); assumption.
  - intros e He Hage. rewrite (Hold e He Hage). apply Hnone.
    rewrite durable_with_memory. assumption.
  - intros He. rewrite (Hmiss He). apply Hnone. assumption.
Qed.

Lemma C5_get_ttl_witness :
  Cache.get Sample.env Config.defaults 1 Sample.one_entry "A"
    = (Cache.data (Sample.stored "A" 0), Sample.one_entry) /\
  Cache.get Sample.env Config.defaults 3600000 Sample.one_entry "A"
    = (JS.VNull, Sample.no_cache) /\
  Cache.get Sample.env Config.defaults 1 Sample.one_entry "B" = (JS.VNull, Sample.one_entry) /\
  Cache.get Sample.env Sample.disabled_config 1 Sample.one_entry "A"
    = (JS.VNull, Sample.one_entry).
Proof.
  split; [|split; [|split]].
  - destruct (C5_get_ttl Sample.env Config.defaults 1 3600000 Sample.one_entry "A"
                eq_refl) as [_ Hon].
    destruct (Hon eq_refl) as (Hhit & _).
    apply (Hhit (Sample.stored "A" 0)); [reflexivity | simpl; lia].
  - destruct (C5_get_ttl Sample.env Config.defaults 3600000 3600000 Sample.one_entry "A"
                eq_refl) as [_ Hon].
    destruct (Hon eq_refl) as (_ & _ & _ & _ & Hmem).
    destruct (Hmem eq_refl) as [Hold _].
    apply (Hold (Sample.stored "A" 0)); [reflexivity | simpl; lia].
  - destruct (C5_get_ttl Sample.env Config.defaults 1 3600000 Sample.one_entry "B"
                eq_refl) as [_ Hon].
    destruct (Hon eq_refl) as (_ & _ & _ & _ & Hmem).
    destruct (Hmem eq_refl) as [_ Hmiss].
    apply Hmiss. reflexivity.
  - destruct (C5_get_ttl Sample.env Sample.disabled_config 1 3600000 Sample.one_entry "A"
                eq_refl) as [Hoff _].
    apply Hoff. reflexivity.
Defined.

(** What [get] and [delete] leave in memory under the other keys *)
Lemma delete_others (env : Env) (c : Cache.t) (k : string) :
  others k (Cache.memoryCache (Cache.delete env c k)) = others k (Cache.memoryCache c).
Proof.
  unfold Cache.delete. cbn [Cache.indexedDBCache Cache.with_memory Cache.indexedDBReady].
  destruct (Cache.indexedDBCache c);
    [destruct (Cache.indexedDBReady c && negb (indexedDB_faulty env))|];
    cbn [Cache.memoryCache Cache.with_store Cache.with_memory]; apply others_delete.
Qed.

Lemma get_durable_others (env : Env) (current : JS.value) (now : Z) (c : Cache.t) (k : string) :
  others k (Cache.memoryCache (snd (Cache.get_durable env current now c k)))
  = others k (Cache.memoryCache c).
Proof.
  unfold Cache.get_durable.
  destruct (Cache.durable current c) as [store|]; [|reflexivity].
  destruct (indexedDB_faulty env); [reflexivity|].
  destruct (JSMap.get store k) as [e|]; [|reflexivity].
  destruct (Cache.fresh current now e); cbn [snd].
  - apply others_set.
  - apply delete_others.
Qed.

Lemma get_others (env : Env) (current : JS.value) (now : Z) (c : Cache.t) (k : string) :
  others k (Cache.memoryCache (snd (Cache.get env current now c k)))
  = others k (Cache.memoryCache c).
Proof.
  unfold Cache.get.
  destruct (negb (JS.truthy (Config.get current "cache.enabled" JS.VNull))); [reflexivity|].
  destruct (JSMap.get (Cache.memoryCache c) k) as [e|].
  - destruct (Cache.fresh current now e); [reflexivity|].
    rewrite get_durable_others. apply others_delete.
  - apply get_durable_others.
Qed.

(** C10: [get(key)] changes the memory tier at [key] only: the entries under
    every other key are the same, in the same order, before and after.  It
    never evicts to enforce [maxSize]: promoting [B] from the durable tier
    into a memory tier that holds [A] under [maxSize = 1] leaves two
    entries. *)
Theorem C10_get_frame (env : Env) (current : JS.value) (now : Z) (c : Cache.t) (k : string) :
  others k (Cache.memoryCache (snd (Cache.get env current now c k)))
    = others k (Cache.memoryCache c) /\
  (forall k', k' <> k ->
     JSMap.get (Cache.memoryCache (snd (Cache.get env current now c k))) k'
     = JSMap.get (Cache.memoryCache c) k') /\
  (Config.get Sample.durable_config "cache.maxSize" (JS.VNum 100) = JS.VNum 1 /\
   JSMap.keys
     (Cache.memoryCache
        (snd (Cache.get Sample.env Sample.durable_config 1 Sample.two_tiers "B")))
   = ["A"; "B"]%string /\
   JSMap.size
     (Cache.memoryCache
        (snd (Cache.get Sample.env Sample.durable_config 1 Sample.two_tiers "B")))
   = 2).
Proof.
  split; [apply get_others|]. split.
  - intros k' Hne. unfold JSMap.get.
    rewrite <- (others_lookup _ k k' Hne), get_others, others_lookup by exact Hne.
    reflexivity.
  - repeat split.
Qed.

Lemma C10_get_frame_witness :
  JSMap.get
    (Cache.memoryCache (snd (Cache.get Sample.env Sample.durable_config 1 Sample.two_tiers "B")))
    "A"
  = JSMap.get (Cache.memoryCache Sample.two_tiers) "A".
Proof.
  apply (C10_get_frame Sample.env Sample.durable_config 1 Sample.two_tiers "B").
  discriminate.
Defined.

(** ** [Promise.allSettled] *)







(** ** Own properties of objects *)

Section ObjectFacts.
Context {A : Type}.
Implicit Types (l : list (string * A)) (k : string) (x : A).








End ObjectFacts.




(** ** [executeStrategies] *)



















(** ** [collect] on a cache miss *)






(** ** Completion order *)





(** ** The timeout of a probe *)

(** C1 fails on the code.  [collect()] hands [this.timeout] to
    [withTimeout] as [timeoutType], the name of a timeout category, and no
    [customTimeout]: the deadline is [Config.get('timeouts.50', 5000)], that
    is 5000ms under the default configuration, not the 50ms of the probe.
    The probe that takes 500ms is therefore recorded with its late result
    and not with [null]; handing the budget over as [customTimeout] would
    give [null] after 50ms. *)
Theorem C1_timeout_not_the_deadline :
  FingerprintStrategy.timeout Sample.slow = JS.VNum 50 /\
  FingerprintStrategy.execute Sample.slow 0
    = Return (Promised (Settles 500 (Fulfilled (JS.VStr "late")))) /\
  Config.get Config.defaults "timeouts.50" (JS.VNum 5000) = JS.VNum 5000 /\
  withTimeout Config.defaults (Promised (Settles 500 (Fulfilled (JS.VStr "late"))))
    (JS.VNum 50) JS.VNull "SlowStrategy" JS.VNull
    = Return (Promised (Settles 500 (Fulfilled (JS.VStr "late")))) /\
  withTimeout Config.defaults (Promised (Settles 500 (Fulfilled (JS.VStr "late"))))
    JS.VNull JS.VNull "SlowStrategy" (JS.VNum 50)
    = Return (Promised (Settles 50 (Fulfilled JS.VNull))) /\
  fst (FingerprintStrategy.collect Config.defaults 0 Sample.slow)
    = Settles 500 (Fulfilled (JS.VStr "late")) /\
  JS.get (JS.get (Sample.composite_of Sample.first_run) "fingerprint") "slow"
    = JS.VStr "late".
Proof. repeat split; reflexivity. Qed.

(** A probe without timeout is awaited as it is. *)
Lemma collect_unwrapped (current : JS.value) (now : Z) (s : FingerprintStrategy.t)
    (r : returned) :
  FingerprintStrategy.isEnabled current s = true ->
  JS.truthy (FingerprintStrategy.timeout s) = false ->
  FingerprintStrategy.execute s now = Return r ->
  settled (fst (FingerprintStrategy.collect current now s)) =
  match await r with
  | Settles _ outcome =>
      Some (if FingerprintStrategy.cleanup_throws s then Rejected "cleanup"
            else Fulfilled (FingerprintCollector.value_of_settlement outcome))
  | Pending => None
  end.
Proof.
  intros Hen Hto Hex. unfold FingerprintStrategy.collect.
  rewrite Hen, Hex, Hto. cbn [negb].
  destruct (await r) as [d [v|reason]|]; reflexivity.
Qed.

(** With a timeout, the deadline comes from the configuration entry
    [timeouts.<timeout>] or is 5000ms. *)
Lemma collect_wrapped (current : JS.value) (now : Z) (s : FingerprintStrategy.t)
    (p : promise) :
  FingerprintStrategy.isEnabled current s = true ->
  JS.truthy (FingerprintStrategy.timeout s) = true ->
  FingerprintStrategy.execute s now = Return (Promised p) ->
  let deadline :=
    JS.timer_delay
      (Config.get current ("timeouts." +:+ JS.to_string (FingerprintStrategy.timeout s))
         (JS.VNum 5000)) in
  settled (fst (FingerprintStrategy.collect current now s)) =
  Some (if FingerprintStrategy.cleanup_throws s then Rejected "cleanup"
        else Fulfilled
               match p with
               | Settles d outcome =>
                   if d <=? deadline then FingerprintCollector.value_of_settlement outcome
                   else JS.VNull
               | Pending => JS.VNull
               end).
Proof.
  intros Hen Hto Hex deadline. unfold FingerprintStrategy.collect.
  rewrite Hen, Hex, Hto. cbn [negb]. unfold withTimeout. cbn [JS.truthy].
  fold deadline.
  destruct p as [d [v|reason]|]; [destruct (d <=? deadline)..|];
    cbn [await fst settled]; destruct (FingerprintStrategy.cleanup_throws s); reflexivity.
Qed.

(** ** Two calls of [collect] *)

















(** The order in which the results are filed, which is the order of
    [getEnabledStrategies()], does reach the serialization and the hash:
    the same two probes registered in the other order, with equal
    priorities, give the same components under the same keys and another
    hash. *)
Remark registration_order_reaches_the_hash :
  option_map fst
    (content (FingerprintCollector.generate Sample.env Sample.canvas_first
                Sample.world 0 None []))
  = Some (JS.VObj [("canvasFingerprint", JS.VStr "c"); ("screen", JS.VStr "s")]%string) /\
  option_map fst
    (content (FingerprintCollector.generate Sample.env Sample.screen_registered_first
                Sample.world 0 None []))
  = Some (JS.VObj [("screen", JS.VStr "s"); ("canvasFingerprint", JS.VStr "c")]%string) /\
  option_map snd
    (content (FingerprintCollector.generate Sample.env Sample.canvas_first
                Sample.world 0 None []))
  <> option_map snd
       (content (FingerprintCollector.generate Sample.env Sample.screen_registered_first
                   Sample.world 0 None [])).
Proof. repeat split; try reflexivity. vm_compute. discriminate. Qed.
